(** * The SOLID-principles example browser ([main.py])

    A shallow embedding of the console menu of the repository: the three
    functions [display_menu], [load_example] and [main] of [main.py], together
    with the few pieces of the Python library they call ([str.strip],
    [str.split], [str.lower], [os.path.join], [print], [input], [open]).

    Python strings are modelled by [string]; a character stands for a code
    point below 256.  Terminal output and file accesses are recorded as a
    list of events, exceptions as the [Raise] result. *)

From Stdlib Require Import String Ascii List Bool Arith Lia.
Import ListNotations.
Open Scope string_scope.

(** ** Python strings *)

Module PyStr.

(** The line feed, Python's ["\n"]. *)
Definition nl : string := String (ascii_of_nat 10) EmptyString.

(** [str.isspace] on one code point below 256: TAB..CR, FS..US, space,
    NEL and the no-break space. *)
Definition isspace (c : ascii) : bool :=
  let n := nat_of_ascii c in
  (((9 <=? n) && (n <=? 13)) || ((28 <=? n) && (n <=? 32))
   || (n =? 133) || (n =? 160))%nat.

Fixpoint lstrip (s : string) : string :=
  match s with
  | EmptyString => EmptyString
  | String c s' => if isspace c then lstrip s' else s
  end.

Fixpoint rstrip (s : string) : string :=
  match s with
  | EmptyString => EmptyString
  | String c s' =>
      match rstrip s' with
      | EmptyString => if isspace c then EmptyString else String c EmptyString
      | r => String c r
      end
  end.

(** [s.strip()]: whitespace removed at both ends. *)
Definition strip (s : string) : string := rstrip (lstrip s).

(** [str.lower] on one code point below 256: the ASCII capitals and the
    Latin-1 capitals (all of 192..222 but the multiplication sign). *)
Definition lower_char (c : ascii) : ascii :=
  let n := nat_of_ascii c in
  if (((65 <=? n) && (n <=? 90))
      || ((192 <=? n) && (n <=? 222) && negb (n =? 215)))%nat
  then ascii_of_nat (n + 32) else c.

Fixpoint lower (s : string) : string :=
  match s with
  | EmptyString => EmptyString
  | String c s' => String (lower_char c) (lower s')
  end.

(** [s.split(sep)] for a separator of one character, as in
    [principle.split('-')]: the pieces between the separators, in order;
    a string without separator is its own single piece. *)
Fixpoint split (sep : ascii) (s : string) : list string :=
  match s with
  | EmptyString => [EmptyString]
  | String c s' =>
      if Ascii.eqb c sep then EmptyString :: split sep s'
      else match split sep s' with
           | w :: ws => String c w :: ws
           | [] => [String c EmptyString]
           end
  end.

Definition startswith (p s : string) : bool := String.prefix p s.

Fixpoint endswith_char (c : ascii) (s : string) : bool :=
  match s with
  | EmptyString => false
  | String d EmptyString => Ascii.eqb d c
  | String _ s' => endswith_char c s'
  end.

(** [os.path.join(a, b)] of [posixpath]: an absolute [b] replaces [a];
    otherwise the two are glued with one slash, which is left out when [a]
    is empty or already ends with one. *)
Definition path_join (a b : string) : string :=
  if startswith "/" b then b
  else if (String.length a =? 0)%nat || endswith_char "/" a then a ++ b
  else a ++ "/" ++ b.

End PyStr.

Import PyStr.

(** ** Effects: terminal output, file reads, exceptions *)

(** The exceptions the program can raise. *)
Inductive exn : Type :=
| IndexError
| FileNotFoundError
| PermissionError
| EOFError.

(** What the process does to the outside world, in order. *)
Inductive event : Type :=
| Stdout (text : string)      (* characters written to standard output *)
| OpenRead (path : string).   (* [open(path, "r")] was attempted *)

Inductive result (A : Type) : Type :=
| Ok (a : A)
| Raise (e : exn).
Arguments Ok {A} a.
Arguments Raise {A} e.

(** A computation: the events it emitted, and how it ended. *)
Definition io (A : Type) : Type := (list event * result A)%type.

Definition ret {A} (a : A) : io A := ([], Ok a).
Definition raise {A} (e : exn) : io A := ([], Raise e).
Definition emit (ev : event) : io unit := ([ev], Ok tt).

Definition bind {A B} (m : io A) (k : A -> io B) : io B :=
  match snd m with
  | Ok a => ((fst m ++ fst (k a))%list, snd (k a))
  | Raise e => (fst m, Raise e)
  end.

Notation "x <- m ;; k" := (bind m (fun x => k))
  (at level 61, m at next level, right associativity).
Notation "m ;; k" := (bind m (fun _ => k))
  (at level 61, right associativity).

(** An exception that reaches the top level makes the interpreter exit with
    status 1; a script that runs to its end exits with status 0. *)
Definition exit_status {A} (r : result A) : nat :=
  match r with
  | Ok _ => 0
  | Raise _ => 1
  end.

(** The characters written to standard output by a run. *)
Fixpoint stdout_text (evs : list event) : string :=
  match evs with
  | [] => EmptyString
  | Stdout t :: evs' => t ++ stdout_text evs'
  | OpenRead _ :: evs' => stdout_text evs'
  end.

(** The paths a run tried to open, in order. *)
Fixpoint opened (evs : list event) : list string :=
  match evs with
  | [] => []
  | Stdout _ :: evs' => opened evs'
  | OpenRead p :: evs' => p :: opened evs'
  end.

(** [print(s)]: the text and a line feed. *)
Definition print (s : string) : io unit := emit (Stdout (s ++ nl)).

(** [l[i]] on a Python list. *)
Definition getitem {A} (l : list A) (i : nat) : io A :=
  match nth_error l i with
  | Some a => ret a
  | None => raise IndexError
  end.

(** A path of the file system: absent, present but not readable by the
    process, or a text file with its decoded contents. *)
Inductive file : Type :=
| Missing
| Denied
| Text (contents : string).

(** What controls the [while True] loop after one pass through its body. *)
Inductive flow : Type :=
| Continue
| Break.

Section Browser.

(** The file system, which the program only reads. *)
Variable fs : string -> file.

(** [with open(path, "r") as file: ... file.read()] *)
Definition open_read (path : string) : io string :=
  emit (OpenRead path) ;;
  match fs path with
  | Text contents => ret contents
  | Missing => raise FileNotFoundError
  | Denied => raise PermissionError
  end.

Definition display_menu : io unit :=
  print "Welcome to the SOLID Principles Interactive Demo!" ;;
  print "Please choose a principle to explore:" ;;
  print "1. Single Responsibility Principle (SRP)" ;;
  print "2. Open/Closed Principle (OCP)" ;;
  print "3. Liskov Substitution Principle (LSP)" ;;
  print "4. Interface Segregation Principle (ISP)" ;;
  print "5. Dependency Inversion Principle (DIP)" ;;
  print "6. Exit".

(** The two assignments that open [load_example]: the paths of the bad and
    of the good example of a principle.  [principle.split('-')[1]] raises
    [IndexError] when the identifier has no separator. *)
Definition example_paths (principle : string) : io (string * string) :=
  let principle_path := principle in
  suffix <- getitem (split "-" principle) 1 ;;
  let bad_example :=
    path_join principle_path ("bad_" ++ lower suffix ++ ".py") in
  suffix <- getitem (split "-" principle) 1 ;;
  let good_example :=
    path_join principle_path ("good_" ++ lower suffix ++ ".py") in
  ret (bad_example, good_example).

Definition load_example (principle : string) : io unit :=
  paths <- example_paths principle ;;
  let bad_example := fst paths in
  let good_example := snd paths in
  print (nl ++ "--- Bad Example ---") ;;
  (contents <- open_read bad_example ;; print contents) ;;
  print (nl ++ "--- Good Example ---") ;;
  (contents <- open_read good_example ;; print contents).

(** The [if]/[elif] chain of the loop body, on the stripped input. *)
Definition dispatch (choice : string) : io flow :=
  if choice =? "1" then load_example "1-srp" ;; ret Continue
  else if choice =? "2" then load_example "2-ocp" ;; ret Continue
  else if choice =? "3" then load_example "3-lsp" ;; ret Continue
  else if choice =? "4" then load_example "4-isp" ;; ret Continue
  else if choice =? "5" then load_example "5-dip" ;; ret Continue
  else if choice =? "6" then print "Goodbye!" ;; ret Break
  else print "Invalid choice, please try again." ;; ret Continue.

(** The prompt that [input] writes before it reads. *)
Definition prompt : string := "Enter your choice: ".

(** One pass through the body of the loop, on the line that [input] got. *)
Definition loop_body (line : string) : io flow :=
  display_menu ;;
  emit (Stdout prompt) ;;
  let choice := strip line in
  dispatch choice.

(** [main()], run on the lines still waiting on standard input.  Each pass of
    the loop shows the menu, writes the prompt and takes one line; [input]
    raises [EOFError] when there is none.  A normal return hands back the
    lines that were never read. *)
Fixpoint main (stdin : list string) : io (list string) :=
  display_menu ;;
  emit (Stdout prompt) ;;
  match stdin with
  | [] => raise EOFError
  | line :: rest =>
      let choice := strip line in
      next <- dispatch choice ;;
      match next with
      | Break => ret rest
      | Continue => main rest
      end
  end.

End Browser.

(** ** The loop as a state machine *)

(** The process is running its loop, has left it through [break], or was
    ended by an exception that nothing caught. *)
Inductive state : Type :=
| Running
| Terminated
| Aborted (e : exn).

(** The effect of one input line on the state: what one pass through the
    loop body does to the control flow. *)
Definition step (fs : string -> file) (s : state) (line : string) : state :=
  match s with
  | Running =>
      match snd (loop_body fs line) with
      | Ok Continue => Running
      | Ok Break => Terminated
      | Raise e => Aborted e
      end
  | Terminated => Terminated
  | Aborted e => Aborted e
  end.

(** ** Vocabulary of the statements *)

(** The inputs that select a principle, each with the identifier that [main]
    hands to [load_example]. *)
Definition selections : list (string * string) :=
  [("1", "1-srp"); ("2", "2-ocp"); ("3", "3-lsp"); ("4", "4-isp");
   ("5", "5-dip")].

Definition principles : list string := map snd selections.

(** All menu choices: the five selections and the exit. *)
Definition choices : list string := (map fst selections ++ ["6"])%list.

(** The part of a string after the first occurrence of a separator (empty
    when the separator does not occur). *)
Fixpoint suffix_after (sep : ascii) (s : string) : string :=
  match s with
  | EmptyString => EmptyString
  | String c s' => if Ascii.eqb c sep then s' else suffix_after sep s'
  end.

(** The naming convention of the example files. *)
Definition bad_path (principle : string) : string :=
  principle ++ "/bad_" ++ lower (suffix_after "-" principle) ++ ".py".

Definition good_path (principle : string) : string :=
  principle ++ "/good_" ++ lower (suffix_after "-" principle) ++ ".py".

Definition bad_header : string := nl ++ "--- Bad Example ---" ++ nl.
Definition good_header : string := nl ++ "--- Good Example ---" ++ nl.

(** What a successful [load_example] does, for files with contents [b] and
    [g]. *)
Definition example_events (principle b g : string) : list event :=
  [Stdout bad_header; OpenRead (bad_path principle); Stdout (b ++ nl);
   Stdout good_header; OpenRead (good_path principle); Stdout (g ++ nl)].

(** The six lines of the menu proper. *)
Definition menu_lines : list string :=
  ["1. Single Responsibility Principle (SRP)";
   "2. Open/Closed Principle (OCP)";
   "3. Liskov Substitution Principle (LSP)";
   "4. Interface Segregation Principle (ISP)";
   "5. Dependency Inversion Principle (DIP)";
   "6. Exit"].

(** The two lines that [display_menu] prints above them. *)
Definition banner_lines : list string :=
  ["Welcome to the SOLID Principles Interactive Demo!";
   "Please choose a principle to explore:"].

Definition printed (lines : list string) : list event :=
  map (fun l => Stdout (l ++ nl)) lines.

(** Everything [display_menu] writes. *)
Definition menu_events : list event := printed (banner_lines ++ menu_lines)%list.

(** What every pass of the loop writes before it reads a line. *)
Definition pass_prefix : list event := (menu_events ++ [Stdout prompt])%list.

Definition goodbye_message : string := "Goodbye!" ++ nl.

Definition invalid_message : string :=
  "Invalid choice, please try again." ++ nl.

(** A computation that first emits [evs]. *)
Definition prepend {A} (evs : list event) (m : io A) : io A :=
  ((evs ++ fst m)%list, snd m).

(** The events of one pass of the loop on a line. *)
Definition pass_events (fs : string -> file) (line : string) : list event :=
  fst (loop_body fs line).

(** The events of consecutive passes. *)
Definition session_events (fs : string -> file) (lines : list string)
  : list event :=
  concat (map (pass_events fs) lines).

(** The loop goes on after this line. *)
Definition continues (fs : string -> file) (line : string) : Prop :=
  snd (loop_body fs line) = Ok Continue.

Definition readable (f : file) : bool :=
  match f with
  | Text _ => true
  | _ => false
  end.

(** The exception [open] raises on a path, if any. *)
Definition open_failure (f : file) : option exn :=
  match f with
  | Missing => Some FileNotFoundError
  | Denied => Some PermissionError
  | Text _ => None
  end.

(** Both example files of every principle can be read. *)
Definition examples_readable (fs : string -> file) : bool :=
  forallb (fun p => readable (fs (bad_path p)) && readable (fs (good_path p)))
          principles.

(** A file system given by the list of its text files. *)
Definition fs_of (files : list (string * string)) (path : string) : file :=
  match find (fun kv => fst kv =? path) files with
  | Some kv => Text (snd kv)
  | None => Missing
  end.

(** The layout of the repository, with stand-in contents. *)
Definition sample_files : list (string * string) :=
  [("1-srp/bad_srp.py", "class Employee: pass" ++ nl);
   ("1-srp/good_srp.py", "class SalaryCalculator: pass" ++ nl);
   ("2-ocp/bad_ocp.py", "class Discount: pass" ++ nl);
   ("2-ocp/good_ocp.py", "class DiscountStrategy: pass" ++ nl);
   ("3-lsp/bad_lsp.py", "class Penguin(Bird): pass" ++ nl);
   ("3-lsp/good_lsp.py", "class FlyingBird(Bird): pass" ++ nl);
   ("4-isp/bad_isp.py", "class Worker: pass" ++ nl);
   ("4-isp/good_isp.py", "class Workable: pass" ++ nl);
   ("5-dip/bad_dip.py", "class Developer: pass" ++ nl);
   ("5-dip/good_dip.py", "class Project: pass" ++ nl)].

Definition sample_fs : string -> file := fs_of sample_files.

(** A checkout in which an example file is missing: only the bad example of
    the third principle is there. *)
Definition partial_fs : string -> file :=
  fs_of [("3-lsp/bad_lsp.py", "class Penguin(Bird): pass" ++ nl)].

(** No example file at all. *)
Definition empty_fs : string -> file := fs_of [].

(** ** Vocabulary of the further properties *)

(** The ten example files of the repository. *)
Definition example_files : list string :=
  ["1-srp/bad_srp.py"; "1-srp/good_srp.py";
   "2-ocp/bad_ocp.py"; "2-ocp/good_ocp.py";
   "3-lsp/bad_lsp.py"; "3-lsp/good_lsp.py";
   "4-isp/bad_isp.py"; "4-isp/good_isp.py";
   "5-dip/bad_dip.py"; "5-dip/good_dip.py"].

(** A string of whitespace only. *)
Fixpoint all_space (s : string) : bool :=
  match s with
  | EmptyString => true
  | String c s' => isspace c && all_space s'
  end.

(** The character occurs in the string. *)
Fixpoint has_char (c : ascii) (s : string) : bool :=
  match s with
  | EmptyString => false
  | String d s' => Ascii.eqb d c || has_char c s'
  end.

(** The part of a string before the first occurrence of a separator (all of
    it when the separator does not occur). *)
Fixpoint prefix_before (sep : ascii) (s : string) : string :=
  match s with
  | EmptyString => EmptyString
  | String c s' =>
      if Ascii.eqb c sep then EmptyString else String c (prefix_before sep s')
  end.

(** The piece of an identifier between its first and its second separator
    (up to the end when there is no second one). *)
Definition second_piece (principle : string) : string :=
  prefix_before "-" (suffix_after "-" principle).

(** The line is not stripped to the exit choice. *)
Definition not_exit (line : string) : Prop := strip line <> "6".

(** ** The dependency-inversion examples ([5-dip]) *)

(** [sep.join(l)] *)
Fixpoint join (sep : string) (l : list string) : string :=
  match l with
  | [] => EmptyString
  | x :: l' =>
      match l' with
      | [] => x
      | _ :: _ => x ++ sep ++ join sep l'
      end
  end.

(** [bad_dip.py]: the project creates its two developers itself. *)
Module BadDip.

Definition BackendDeveloper_develop : string := "Writing backend code...".

Definition FrontendDeveloper_develop : string := "Writing frontend code...".

Record Project : Type := {
  backend : string;    (* what [self.backend.develop()] returns *)
  frontend : string    (* what [self.frontend.develop()] returns *)
}.

(** [Project.__init__] *)
Definition Project_init : Project :=
  {| backend := BackendDeveloper_develop;
     frontend := FrontendDeveloper_develop |}.

(** [Project.develop]: the two texts, one blank between them. *)
Definition Project_develop (self : Project) : string :=
  backend self ++ " " ++ frontend self.

End BadDip.

(** [good_dip.py]: the project is handed its developers. *)
Module GoodDip.

(** An object of a concrete subclass of [Developer]: what its [develop]
    method returns. *)
Record Developer : Type := { develop : string }.

Definition BackendDeveloper : Developer :=
  {| develop := "Writing backend code..." |}.

Definition FrontendDeveloper : Developer :=
  {| develop := "Writing frontend code..." |}.

(** [Project.develop], on [self.developers]. *)
Definition Project_develop (developers : list Developer) : string :=
  join " " (map develop developers).

(** The example usage at the end of the file. *)
Definition team : list Developer := [BackendDeveloper; FrontendDeveloper].

Definition script : io unit := print (Project_develop team).

End GoodDip.

(** ** Laws of the effect monad *)

Lemma bind_ok {A B} (evs : list event) (a : A) (k : A -> io B) :
  bind (evs, Ok a) k = prepend evs (k a).
Proof. reflexivity. Qed.

Lemma bind_raise {A B} (evs : list event) (e : exn) (k : A -> io B) :
  bind (evs, Raise e) k = (evs, Raise e).
Proof. reflexivity. Qed.

Lemma prepend_nil {A} (m : io A) : prepend [] m = m.
Proof. destruct m; reflexivity. Qed.

Lemma prepend_prepend {A} (e1 e2 : list event) (m : io A) :
  prepend e1 (prepend e2 m) = prepend (e1 ++ e2)%list m.
Proof. unfold prepend; cbn [fst snd]. now rewrite app_assoc. Qed.

Lemma prepend_pair {A} (e1 e2 : list event) (r : result A) :
  prepend e1 (e2, r) = ((e1 ++ e2)%list, r).
Proof. reflexivity. Qed.

Lemma append_empty_r (s : string) : s ++ EmptyString = s.
Proof. induction s as [|c s IH]; [reflexivity|]. cbn. now rewrite IH. Qed.

Lemma opened_app (e1 e2 : list event) :
  opened (e1 ++ e2)%list = (opened e1 ++ opened e2)%list.
Proof.
  induction e1 as [|[t|p] e1 IH]; cbn [opened app]; [reflexivity|exact IH|].
  now rewrite IH.
Qed.

Lemma opened_printed (lines : list string) : opened (printed lines) = [].
Proof. induction lines as [|l lines IH]; [reflexivity|exact IH]. Qed.

(** ** The menu *)

Lemma display_menu_eq :
  display_menu = (menu_events, Ok tt).
Proof. reflexivity. Qed.

(** ** The paths of the examples *)

Lemma in_principles (c pid : string) :
  In (c, pid) selections -> In pid principles.
Proof. intros H. apply (in_map snd) in H. exact H. Qed.

Lemma example_paths_principle (pid : string) :
  In pid principles ->
  example_paths pid = ret (bad_path pid, good_path pid).
Proof.
  intros H. cbn in H.
  repeat (destruct H as [<-|H]; [reflexivity|]). contradiction.
Qed.

Section Loading.

Variable fs : string -> file.

Lemma open_read_text (p c : string) :
  fs p = Text c -> open_read fs p = ([OpenRead p], Ok c).
Proof. intros H. unfold open_read. rewrite H. reflexivity. Qed.

Lemma open_read_failure (p : string) (e : exn) :
  open_failure (fs p) = Some e -> open_read fs p = ([OpenRead p], Raise e).
Proof.
  intros H. unfold open_read.
  destruct (fs p); cbn in H; inversion H; reflexivity.
Qed.

(** [load_example] when both files can be read. *)
Lemma load_example_ok (pid b g : string) :
  In pid principles ->
  fs (bad_path pid) = Text b -> fs (good_path pid) = Text g ->
  load_example fs pid = (example_events pid b g, Ok tt).
Proof.
  intros Hp Hb Hg. unfold load_example.
  rewrite (example_paths_principle pid Hp). unfold ret, print, emit.
  rewrite bind_ok. cbn [fst snd].
  rewrite (open_read_text _ _ Hb), (open_read_text _ _ Hg).
  reflexivity.
Qed.

(** [load_example] when the bad example cannot be opened. *)
Lemma load_example_bad_fails (pid : string) (e : exn) :
  In pid principles ->
  open_failure (fs (bad_path pid)) = Some e ->
  load_example fs pid
  = ([Stdout bad_header; OpenRead (bad_path pid)], Raise e).
Proof.
  intros Hp Hb. unfold load_example.
  rewrite (example_paths_principle pid Hp). unfold ret, print, emit.
  rewrite bind_ok. cbn [fst snd].
  rewrite (open_read_failure _ _ Hb).
  reflexivity.
Qed.

(** [load_example] when only the good example cannot be opened. *)
Lemma load_example_good_fails (pid b : string) (e : exn) :
  In pid principles ->
  fs (bad_path pid) = Text b ->
  open_failure (fs (good_path pid)) = Some e ->
  load_example fs pid
  = ([Stdout bad_header; OpenRead (bad_path pid); Stdout (b ++ nl);
      Stdout good_header; OpenRead (good_path pid)], Raise e).
Proof.
  intros Hp Hb Hg. unfold load_example.
  rewrite (example_paths_principle pid Hp). unfold ret, print, emit.
  rewrite bind_ok. cbn [fst snd].
  rewrite (open_read_text _ _ Hb), (open_read_failure _ _ Hg).
  reflexivity.
Qed.

End Loading.

(** ** The loop *)

Lemma bind_assoc {A B C} (m : io A) (f : A -> io B) (g : B -> io C) :
  bind (bind m f) g = bind m (fun a => bind (f a) g).
Proof.
  destruct m as [e1 [a|x]]; [|reflexivity].
  unfold bind; cbn [fst snd].
  destruct (f a) as [e2 [b|y]]; cbn [fst snd]; [|reflexivity].
  now rewrite app_assoc.
Qed.

Lemma snd_then_continue (m : io unit) :
  snd (m ;; ret Continue)
  = match snd m with Ok _ => Ok Continue | Raise e => Raise e end.
Proof. destruct m as [evs [u|e]]; reflexivity. Qed.

Lemma fst_then_continue (m : io unit) : fst (m ;; ret Continue) = fst m.
Proof.
  destruct m as [evs [u|e]]; unfold bind; cbn [fst snd ret]; [|reflexivity].
  apply app_nil_r.
Qed.

Section Loop.

Variable fs : string -> file.

Lemma dispatch_selection (c pid : string) :
  In (c, pid) selections ->
  dispatch fs c = load_example fs pid ;; ret Continue.
Proof.
  intros H. cbn in H.
  repeat (destruct H as [H|H]; [inversion H; subst; reflexivity|]).
  contradiction.
Qed.

Lemma dispatch_exit : dispatch fs "6" = ([Stdout goodbye_message], Ok Break).
Proof. reflexivity. Qed.

Lemma dispatch_invalid (c : string) :
  ~ In c choices -> dispatch fs c = ([Stdout invalid_message], Ok Continue).
Proof.
  intros H. unfold dispatch.
  repeat match goal with
  | |- context [String.eqb c ?k] =>
      destruct (String.eqb_spec c k) as [->|_];
      [exfalso; apply H; cbn; tauto|]
  end.
  reflexivity.
Qed.

Lemma in_choices (c : string) :
  In c choices -> c = "6" \/ exists pid, In (c, pid) selections.
Proof.
  cbn. intros H.
  repeat (destruct H as [<-|H];
          [first [left; reflexivity
                 |right; eexists; cbn; repeat (first [left; reflexivity|right])]|]).
  contradiction.
Qed.

(** Only the exit choice breaks out of the loop. *)
Lemma dispatch_break_iff (c : string) :
  snd (dispatch fs c) = Ok Break <-> c = "6".
Proof.
  split; [|intros ->; reflexivity].
  intros H. destruct (in_dec string_dec c choices) as [Hin|Hout].
  - destruct (in_choices c Hin) as [->|[pid Hsel]]; [reflexivity|].
    rewrite (dispatch_selection c pid Hsel), snd_then_continue in H.
    destruct (snd (load_example fs pid)); discriminate.
  - rewrite (dispatch_invalid c Hout) in H. discriminate.
Qed.

Lemma loop_body_eq (line : string) :
  loop_body fs line = prepend pass_prefix (dispatch fs (strip line)).
Proof. reflexivity. Qed.

Lemma main_cons (line : string) (rest : list string) :
  main fs (line :: rest)
  = next <- loop_body fs line ;;
    match next with
    | Break => ret rest
    | Continue => main fs rest
    end.
Proof.
  unfold loop_body. cbn [main]. now rewrite !bind_assoc.
Qed.

Lemma main_nil : main fs [] = (pass_prefix, Raise EOFError).
Proof. reflexivity. Qed.

Lemma main_continue (line : string) (rest : list string) :
  continues fs line ->
  main fs (line :: rest) = prepend (pass_events fs line) (main fs rest).
Proof.
  unfold continues, pass_events. intros H. rewrite main_cons.
  destruct (loop_body fs line) as [evs r]. cbn [fst snd] in *. subst r.
  reflexivity.
Qed.

Lemma main_break (line : string) (rest : list string) :
  snd (loop_body fs line) = Ok Break ->
  main fs (line :: rest) = (pass_events fs line, Ok rest).
Proof.
  unfold pass_events. intros H. rewrite main_cons.
  destruct (loop_body fs line) as [evs r]. cbn [fst snd] in *. subst r.
  rewrite bind_ok. unfold ret, prepend. cbn [fst snd]. now rewrite app_nil_r.
Qed.

Lemma main_raise (line : string) (rest : list string) (e : exn) :
  snd (loop_body fs line) = Raise e ->
  main fs (line :: rest) = (pass_events fs line, Raise e).
Proof.
  unfold pass_events. intros H. rewrite main_cons.
  destruct (loop_body fs line) as [evs r]. cbn [fst snd] in *. subst r.
  reflexivity.
Qed.

(** Every run starts by showing the menu and the prompt. *)
Lemma main_starts (stdin : list string) :
  exists tail, fst (main fs stdin) = (pass_prefix ++ tail)%list.
Proof.
  destruct stdin as [|line rest].
  - exists []. rewrite main_nil. cbn [fst]. now rewrite app_nil_r.
  - rewrite main_cons, loop_body_eq.
    destruct (dispatch fs (strip line)) as [evs [[|]|e]].
    + rewrite prepend_pair, bind_ok. unfold prepend; cbn [fst snd].
      rewrite <- app_assoc. eauto.
    + rewrite prepend_pair, bind_ok. unfold prepend; cbn [fst snd].
      rewrite <- app_assoc. eauto.
    + rewrite prepend_pair, bind_raise. cbn [fst]. eauto.
Qed.

(** A run over lines that all let the loop go on. *)
Lemma main_app (pre rest : list string) :
  Forall (continues fs) pre ->
  main fs (pre ++ rest)%list = prepend (session_events fs pre) (main fs rest).
Proof.
  induction 1 as [|line pre Hline _ IH]; cbn [app].
  - now rewrite prepend_nil.
  - rewrite (main_continue _ _ Hline), IH, prepend_prepend. reflexivity.
Qed.

(** X12: the state machine agrees with [main]: the run returns when the machine
    reaches [Terminated], dies with the exception of [Aborted], and meets the
    end of the input when the machine is still [Running]. *)
Lemma main_outcome (stdin : list string) :
  match fold_left (step fs) stdin Running with
  | Running => snd (main fs stdin) = Raise EOFError
  | Terminated => exists unread, snd (main fs stdin) = Ok unread
  | Aborted e => snd (main fs stdin) = Raise e
  end.
Proof.
  assert (Hterm : forall l, fold_left (step fs) l Terminated = Terminated)
    by (induction l; [reflexivity|assumption]).
  assert (Habort : forall e l, fold_left (step fs) l (Aborted e) = Aborted e)
    by (induction l; [reflexivity|assumption]).
  induction stdin as [|line rest IH].
  - reflexivity.
  - cbn [fold_left]. unfold step at 2.
    destruct (snd (loop_body fs line)) as [[|]|e] eqn:Hbody.
    + rewrite (main_continue line rest Hbody).
      unfold prepend; cbn [snd]. exact IH.
    + rewrite Hterm, (main_break line rest Hbody). cbn [snd]. eauto.
    + rewrite Habort, (main_raise line rest e Hbody). reflexivity.
Qed.

End Loop.

(** ** Case analysis of [load_example] *)

Lemma load_example_no_index_error (fs : string -> file) (pid : string) :
  In pid principles -> snd (load_example fs pid) <> Raise IndexError.
Proof.
  intros Hp.
  destruct (fs (bad_path pid)) as [| |b] eqn:Hb.
  - rewrite (load_example_bad_fails fs pid FileNotFoundError Hp)
      by (rewrite Hb; reflexivity).
    discriminate.
  - rewrite (load_example_bad_fails fs pid PermissionError Hp)
      by (rewrite Hb; reflexivity).
    discriminate.
  - destruct (fs (good_path pid)) as [| |g] eqn:Hg.
    + rewrite (load_example_good_fails fs pid b FileNotFoundError Hp Hb)
        by (rewrite Hg; reflexivity).
      discriminate.
    + rewrite (load_example_good_fails fs pid b PermissionError Hp Hb)
        by (rewrite Hg; reflexivity).
      discriminate.
    + rewrite (load_example_ok fs pid b g Hp Hb Hg). discriminate.
Qed.

Lemma load_example_opened (fs : string -> file) (pid : string) :
  In pid principles ->
  opened (fst (load_example fs pid))
  = bad_path pid
    :: (if readable (fs (bad_path pid)) then [good_path pid] else []).
Proof.
  intros Hp.
  destruct (fs (bad_path pid)) as [| |b] eqn:Hb.
  - rewrite (load_example_bad_fails fs pid FileNotFoundError Hp)
      by (rewrite Hb; reflexivity).
    reflexivity.
  - rewrite (load_example_bad_fails fs pid PermissionError Hp)
      by (rewrite Hb; reflexivity).
    reflexivity.
  - destruct (fs (good_path pid)) as [| |g] eqn:Hg.
    + rewrite (load_example_good_fails fs pid b FileNotFoundError Hp Hb)
        by (rewrite Hg; reflexivity).
      reflexivity.
    + rewrite (load_example_good_fails fs pid b PermissionError Hp Hb)
        by (rewrite Hg; reflexivity).
      reflexivity.
    + rewrite (load_example_ok fs pid b g Hp Hb Hg). reflexivity.
Qed.

Lemma dispatch_no_index_error (fs : string -> file) (c : string) :
  snd (dispatch fs c) <> Raise IndexError.
Proof.
  destruct (in_dec string_dec c choices) as [Hin|Hout].
  - destruct (in_choices c Hin) as [->|[pid Hsel]]; [discriminate|].
    rewrite (dispatch_selection fs c pid Hsel), snd_then_continue.
    pose proof (load_example_no_index_error fs pid (in_principles _ _ Hsel)).
    destruct (snd (load_example fs pid)); congruence.
  - rewrite (dispatch_invalid fs c Hout). discriminate.
Qed.

Lemma examples_readable_spec (fs : string -> file) (pid : string) :
  examples_readable fs = true -> In pid principles ->
  exists b g, fs (bad_path pid) = Text b /\ fs (good_path pid) = Text g.
Proof.
  unfold examples_readable. intros H Hp.
  rewrite forallb_forall in H. specialize (H pid Hp).
  apply andb_true_iff in H. destruct H as [Hb Hg].
  destruct (fs (bad_path pid)) as [| |b]; try discriminate.
  destruct (fs (good_path pid)) as [| |g]; try discriminate.
  eauto.
Qed.

(** A selection whose files can be read lets the loop go on, with the menu,
    the prompt and the two examples as output. *)
Lemma selection_pass (fs : string -> file) (c pid b g : string) :
  In (c, pid) selections ->
  fs (bad_path pid) = Text b -> fs (good_path pid) = Text g ->
  loop_body fs c = ((pass_prefix ++ example_events pid b g)%list, Ok Continue).
Proof.
  intros Hsel Hb Hg. rewrite loop_body_eq.
  assert (Hc : strip c = c).
  { cbn in Hsel.
    repeat (destruct Hsel as [Hsel|Hsel]; [inversion Hsel; reflexivity|]).
    contradiction. }
  rewrite Hc, (dispatch_selection fs c pid Hsel).
  rewrite (load_example_ok fs pid b g (in_principles _ _ Hsel) Hb Hg).
  rewrite bind_ok. unfold ret. rewrite !prepend_pair, app_nil_r. reflexivity.
Qed.

(** The layout of the example files, spelled out. *)
Lemma example_files_layout :
  map (fun p => (bad_path p, good_path p)) principles
  = [("1-srp/bad_srp.py", "1-srp/good_srp.py");
     ("2-ocp/bad_ocp.py", "2-ocp/good_ocp.py");
     ("3-lsp/bad_lsp.py", "3-lsp/good_lsp.py");
     ("4-isp/bad_isp.py", "4-isp/good_isp.py");
     ("5-dip/bad_dip.py", "5-dip/good_dip.py")].
Proof. reflexivity. Qed.

(** ** The properties of the specification *)

(** C1: for every recognized input "1".."5" whose two example files exist and
    are readable, [load_example] prints the whole of both files, the bad
    example before the good one, each after its section header; the loop then
    goes on with the rest of the input. *)
Theorem load_example_prints_both
  (fs : string -> file) (c pid b g : string) (rest : list string) :
  In (c, pid) selections ->
  fs (bad_path pid) = Text b -> fs (good_path pid) = Text g ->
  load_example fs pid = (example_events pid b g, Ok tt)
  /\ stdout_text (example_events pid b g)
     = (nl ++ "--- Bad Example ---" ++ nl) ++ (b ++ nl)
       ++ (nl ++ "--- Good Example ---" ++ nl) ++ (g ++ nl)
  /\ main fs (c :: rest)
     = prepend (pass_prefix ++ example_events pid b g)%list (main fs rest).
Proof.
  intros Hsel Hb Hg. split; [|split].
  - exact (load_example_ok fs pid b g (in_principles _ _ Hsel) Hb Hg).
  - cbn [stdout_text example_events]. now rewrite append_empty_r.
  - assert (Hpass := selection_pass fs c pid b g Hsel Hb Hg).
    rewrite main_continue by (unfold continues; now rewrite Hpass).
    unfold pass_events. now rewrite Hpass.
Qed.

Lemma load_example_prints_both_witness :
  load_example sample_fs "1-srp"
  = (example_events "1-srp" ("class Employee: pass" ++ nl)
                    ("class SalaryCalculator: pass" ++ nl), Ok tt)
  /\ stdout_text (example_events "1-srp" ("class Employee: pass" ++ nl)
                    ("class SalaryCalculator: pass" ++ nl))
     = (nl ++ "--- Bad Example ---" ++ nl)
       ++ (("class Employee: pass" ++ nl) ++ nl)
       ++ (nl ++ "--- Good Example ---" ++ nl)
       ++ (("class SalaryCalculator: pass" ++ nl) ++ nl)
  /\ main sample_fs ["1"; "6"]
     = prepend (pass_prefix
                ++ example_events "1-srp" ("class Employee: pass" ++ nl)
                     ("class SalaryCalculator: pass" ++ nl))%list
               (main sample_fs ["6"]).
Proof.
  apply (load_example_prints_both sample_fs "1" "1-srp").
  - cbn. tauto.
  - reflexivity.
  - reflexivity.
Defined.

(** C2, as the code has it: when an example file of the selected principle is
    missing or unreadable, [load_example] fails with the exception of the
    first file that cannot be opened ([FileNotFoundError] for a missing file,
    [PermissionError] for an unreadable one).  Nothing catches it: [main]
    ends with that exception right there, whatever input is still waiting,
    and the process exits with a failure status. *)
Theorem load_failure_ends_main
  (fs : string -> file) (c pid : string) (e : exn) (rest : list string) :
  In (c, pid) selections ->
  open_failure (fs (bad_path pid)) = Some e
  \/ (readable (fs (bad_path pid)) = true
      /\ open_failure (fs (good_path pid)) = Some e) ->
  (e = FileNotFoundError \/ e = PermissionError)
  /\ snd (load_example fs pid) = Raise e
  /\ main fs (c :: rest)
     = ((pass_prefix ++ fst (load_example fs pid))%list, Raise e)
  /\ exit_status (snd (main fs (c :: rest))) = 1.
Proof.
  intros Hsel Hfail.
  assert (Hp := in_principles _ _ Hsel).
  assert (He : e = FileNotFoundError \/ e = PermissionError).
  { destruct Hfail as [H|[_ H]];
      [destruct (fs (bad_path pid))|destruct (fs (good_path pid))];
      cbn in H; inversion H; auto. }
  assert (Hload : snd (load_example fs pid) = Raise e).
  { destruct Hfail as [Hb|[Hb Hg]].
    - now rewrite (load_example_bad_fails fs pid e Hp Hb).
    - destruct (fs (bad_path pid)) as [| |b] eqn:Hbad; try discriminate.
      now rewrite (load_example_good_fails fs pid b e Hp Hbad Hg). }
  assert (Hc : strip c = c).
  { cbn in Hsel.
    repeat (destruct Hsel as [Hsel|Hsel]; [inversion Hsel; reflexivity|]).
    contradiction. }
  assert (Hbody : loop_body fs c
                  = ((pass_prefix ++ fst (load_example fs pid))%list, Raise e)).
  { rewrite loop_body_eq, Hc, (dispatch_selection fs c pid Hsel).
    destruct (load_example fs pid) as [evs r]. cbn [fst snd] in *. subst r.
    reflexivity. }
  assert (Hmain : main fs (c :: rest)
                  = ((pass_prefix ++ fst (load_example fs pid))%list, Raise e)).
  { rewrite (main_raise fs c rest e) by now rewrite Hbody.
    unfold pass_events. now rewrite Hbody. }
  repeat split; try assumption.
  now rewrite Hmain.
Qed.

Lemma load_failure_ends_main_witness :
  (FileNotFoundError = FileNotFoundError
   \/ FileNotFoundError = PermissionError)
  /\ snd (load_example partial_fs "3-lsp") = Raise FileNotFoundError
  /\ main partial_fs ["3"; "6"]
     = ((pass_prefix ++ fst (load_example partial_fs "3-lsp"))%list,
        Raise FileNotFoundError)
  /\ exit_status (snd (main partial_fs ["3"; "6"])) = 1.
Proof.
  apply (load_failure_ends_main partial_fs "3" "3-lsp" FileNotFoundError ["6"]).
  - cbn. tauto.
  - right. split; reflexivity.
Defined.

(** C2, as stated, fails: with the example files of the first principle
    missing, the input lines "1" and "6" make [main] end with
    [FileNotFoundError] after one display of the menu; the loop does not go
    on, the line "6" is never read and no farewell is printed. *)
Lemma missing_file_stops_loop :
  main empty_fs ["1"; "6"]
  = ((pass_prefix ++ [Stdout bad_header; OpenRead "1-srp/bad_srp.py"])%list,
     Raise FileNotFoundError)
  /\ ~ continues empty_fs "1"
  /\ exit_status (snd (main empty_fs ["1"; "6"])) = 1.
Proof.
  split; [reflexivity|split; [|reflexivity]].
  unfold continues. cbv. discriminate.
Qed.

(** C3: on the input "6" the loop prints the farewell and ends: the menu is
    not shown again, no further line is read, and the process exits with
    status 0. *)
Theorem exit_choice_terminates (fs : string -> file) (rest : list string) :
  main fs ("6" :: rest)
  = ((pass_prefix ++ [Stdout goodbye_message])%list, Ok rest)
  /\ exit_status (snd (main fs ("6" :: rest))) = 0.
Proof. split; reflexivity. Qed.

(** C4: for each of the five principle identifiers, [load_example] computes
    the two paths of the naming convention (identifier, slash, "bad_" or
    "good_", the lower-cased suffix after the separator, ".py"), and the
    paths it opens are these two, in this order, and no other. *)
Theorem example_paths_convention (fs : string -> file) (pid : string) :
  In pid principles ->
  example_paths pid = ret (bad_path pid, good_path pid)
  /\ opened (fst (load_example fs pid))
     = bad_path pid
       :: (if readable (fs (bad_path pid)) then [good_path pid] else [])
  /\ (forall p, In p (opened (fst (load_example fs pid))) ->
                p = bad_path pid \/ p = good_path pid).
Proof.
  intros Hp. split; [|split].
  - exact (example_paths_principle pid Hp).
  - exact (load_example_opened fs pid Hp).
  - intros p. rewrite (load_example_opened fs pid Hp).
    destruct (readable (fs (bad_path pid))); cbn; intuition auto.
Qed.

Lemma example_paths_convention_witness :
  example_paths "3-lsp" = ret ("3-lsp/bad_lsp.py", "3-lsp/good_lsp.py")
  /\ opened (fst (load_example sample_fs "3-lsp"))
     = ["3-lsp/bad_lsp.py"; "3-lsp/good_lsp.py"]
  /\ (forall p, In p (opened (fst (load_example sample_fs "3-lsp"))) ->
                p = "3-lsp/bad_lsp.py" \/ p = "3-lsp/good_lsp.py").
Proof.
  apply (example_paths_convention sample_fs "3-lsp").
  cbn. tauto.
Defined.

(** C5, as the code has it: for any input line whose whitespace-stripped
    form is outside "1".."6", the pass prints the invalid-choice message and
    opens no file, and the loop goes on: the menu and the prompt are written
    again. *)
Theorem invalid_choice_reprompts
  (fs : string -> file) (line : string) (rest : list string) :
  ~ In (strip line) choices ->
  loop_body fs line
  = ((pass_prefix ++ [Stdout invalid_message])%list, Ok Continue)
  /\ opened (pass_events fs line) = []
  /\ main fs (line :: rest)
     = prepend (pass_prefix ++ [Stdout invalid_message])%list (main fs rest)
  /\ exists tail, fst (main fs rest) = (pass_prefix ++ tail)%list.
Proof.
  intros Hout.
  assert (Hbody : loop_body fs line
          = ((pass_prefix ++ [Stdout invalid_message])%list, Ok Continue)).
  { rewrite loop_body_eq, (dispatch_invalid fs _ Hout). reflexivity. }
  split; [exact Hbody|]. split; [|split].
  - unfold pass_events. rewrite Hbody. reflexivity.
  - rewrite main_continue by (unfold continues; now rewrite Hbody).
    unfold pass_events. now rewrite Hbody.
  - apply main_starts.
Qed.

Lemma invalid_choice_reprompts_witness :
  loop_body sample_fs "9"
  = ((pass_prefix ++ [Stdout invalid_message])%list, Ok Continue)
  /\ opened (pass_events sample_fs "9") = []
  /\ main sample_fs ["9"; "3"; "6"]
     = prepend (pass_prefix ++ [Stdout invalid_message])%list
               (main sample_fs ["3"; "6"])
  /\ exists tail, fst (main sample_fs ["3"; "6"]) = (pass_prefix ++ tail)%list.
Proof.
  apply (invalid_choice_reprompts sample_fs "9" ["3"; "6"]).
  cbn. intros H.
  repeat (destruct H as [H|H]; [discriminate H|]). exact H.
Defined.

(** C5, as stated, fails: the line " 1" (a blank, then 1) is none of
    "1".."6", yet it is stripped to "1" and handled as that selection: both
    example files are opened and no invalid-choice message is printed. *)
Lemma padded_choice_is_accepted :
  ~ In " 1" choices
  /\ main sample_fs [" 1"; "6"] = main sample_fs ["1"; "6"]
  /\ opened (pass_events sample_fs " 1")
     = ["1-srp/bad_srp.py"; "1-srp/good_srp.py"]
  /\ ~ In (Stdout invalid_message) (pass_events sample_fs " 1").
Proof.
  split; [|split; [reflexivity|split; [reflexivity|]]].
  - cbn. intros H.
    repeat (destruct H as [H|H]; [discriminate H|]). exact H.
  - cbv. intros H.
    repeat (destruct H as [H|H]; [discriminate H|]). exact H.
Qed.

(** C6, as the code has it: from [Running] the machine goes to [Terminated]
    exactly on an input line that is stripped to "6"; when the example files
    can be read, every other line loops on [Running], and [Running] and
    [Terminated] are the only states a session reaches. *)
Theorem only_exit_terminates (fs : string -> file) :
  (forall line, step fs Running line = Terminated <-> strip line = "6")
  /\ (examples_readable fs = true ->
      (forall line, strip line <> "6" -> step fs Running line = Running)
      /\ (forall lines,
            fold_left (step fs) lines Running = Running
            \/ fold_left (step fs) lines Running = Terminated)).
Proof.
  assert (Hexit : forall line,
            step fs Running line = Terminated <-> strip line = "6").
  { intros line. rewrite <- (dispatch_break_iff fs (strip line)).
    unfold step. rewrite loop_body_eq. unfold prepend; cbn [snd].
    destruct (snd (dispatch fs (strip line))) as [[|]|e];
      split; intros H; try discriminate; reflexivity. }
  split; [exact Hexit|]. intros Hfs.
  assert (Hloop : forall line,
            strip line <> "6" -> step fs Running line = Running).
  { intros line Hne. unfold step. rewrite loop_body_eq.
    unfold prepend; cbn [snd].
    destruct (in_dec string_dec (strip line) choices) as [Hin|Hout].
    - destruct (in_choices _ Hin) as [H6|[pid Hsel]]; [contradiction|].
      destruct (examples_readable_spec fs pid Hfs (in_principles _ _ Hsel))
        as (b & g & Hb & Hg).
      rewrite (dispatch_selection fs _ pid Hsel), snd_then_continue.
      rewrite (load_example_ok fs pid b g (in_principles _ _ Hsel) Hb Hg).
      reflexivity.
    - rewrite (dispatch_invalid fs _ Hout). reflexivity. }
  split; [exact Hloop|].
  assert (Hterm : forall l, fold_left (step fs) l Terminated = Terminated)
    by (induction l; [reflexivity|assumption]).
  induction lines as [|line lines IH]; [left; reflexivity|].
  cbn [fold_left].
  destruct (string_dec (strip line) "6") as [H6|Hne].
  - apply Hexit in H6. rewrite H6, Hterm. right; reflexivity.
  - rewrite (Hloop line Hne). exact IH.
Qed.

Lemma only_exit_terminates_witness :
  examples_readable sample_fs = true
  /\ (step sample_fs Running " 6 " = Terminated <-> strip " 6 " = "6")
  /\ step sample_fs Running "3" = Running
  /\ step sample_fs Running "exit" = Running
  /\ (fold_left (step sample_fs) ["9"; "3"; "6"; "1"] Running = Running
      \/ fold_left (step sample_fs) ["9"; "3"; "6"; "1"] Running = Terminated).
Proof.
  destruct (only_exit_terminates sample_fs) as [Hexit Hrest].
  assert (Hfs : examples_readable sample_fs = true) by reflexivity.
  destruct (Hrest Hfs) as [Hloop Hreach].
  split; [exact Hfs|]. split; [exact (Hexit " 6 ")|].
  split; [apply Hloop; discriminate|].
  split; [apply Hloop; discriminate|].
  exact (Hreach ["9"; "3"; "6"; "1"]).
Defined.

(** C6, as stated, fails: with the example files missing, the input "1",
    which is not the exit selection, does not loop on [Running]: the uncaught
    [FileNotFoundError] ends the process, a third outcome. *)
Lemma selection_can_abort :
  "1" <> "6"
  /\ step empty_fs Running "1" = Aborted FileNotFoundError
  /\ step empty_fs Running "1" <> Running
  /\ step empty_fs Running "1" <> Terminated
  /\ snd (main empty_fs ["1"; "6"]) = Raise FileNotFoundError.
Proof. repeat split; discriminate. Qed.

(** C7: with both example files of a selection readable, entering it twice
    in a session (after, between and before any lines that keep the loop
    going) yields the same output at both places: the events of a pass are a
    function of the file system and of the line alone. *)
Theorem repeated_selection_same_output
  (fs : string -> file) (c pid b g : string) (before between rest : list string) :
  In (c, pid) selections ->
  fs (bad_path pid) = Text b -> fs (good_path pid) = Text g ->
  Forall (continues fs) before -> Forall (continues fs) between ->
  pass_events fs c = (pass_prefix ++ example_events pid b g)%list
  /\ main fs (before ++ c :: between ++ c :: rest)%list
     = prepend (session_events fs before ++ pass_events fs c
                ++ session_events fs between ++ pass_events fs c)%list
               (main fs rest).
Proof.
  intros Hsel Hb Hg Hbefore Hbetween.
  assert (Hpass := selection_pass fs c pid b g Hsel Hb Hg).
  assert (Hc : continues fs c) by (unfold continues; now rewrite Hpass).
  split; [unfold pass_events; now rewrite Hpass|].
  rewrite (main_app fs before _ Hbefore), (main_continue fs c _ Hc).
  rewrite (main_app fs between _ Hbetween), (main_continue fs c _ Hc).
  rewrite !prepend_prepend, <- !app_assoc. reflexivity.
Qed.

Lemma repeated_selection_same_output_witness :
  pass_events sample_fs "1"
  = (pass_prefix
     ++ example_events "1-srp" ("class Employee: pass" ++ nl)
          ("class SalaryCalculator: pass" ++ nl))%list
  /\ main sample_fs (["9"] ++ "1" :: ["3"] ++ "1" :: ["6"])%list
     = prepend (session_events sample_fs ["9"] ++ pass_events sample_fs "1"
                ++ session_events sample_fs ["3"]
                ++ pass_events sample_fs "1")%list
               (main sample_fs ["6"]).
Proof.
  apply (repeated_selection_same_output sample_fs "1" "1-srp").
  - cbn. tauto.
  - reflexivity.
  - reflexivity.
  - repeat constructor.
  - repeat constructor.
Defined.

(** C8, as the code has it: [display_menu] takes no input, always succeeds,
    opens no file, and writes exactly eight fixed lines: the welcome line,
    the line asking to choose a principle, and the six menu lines (the five
    principles and the exit). *)
Theorem display_menu_lines :
  display_menu = (printed (banner_lines ++ menu_lines)%list, Ok tt)
  /\ opened (fst display_menu) = []
  /\ length banner_lines = 2 /\ length menu_lines = 6
  /\ length (fst display_menu) = 8.
Proof. repeat split. Qed.

(** C8, as stated, fails: the output of [display_menu] is not the six menu
    lines alone; two more lines come before them. *)
Lemma display_menu_not_six_lines :
  display_menu <> (printed menu_lines, Ok tt)
  /\ length (fst display_menu) <> 6.
Proof. split; discriminate. Qed.

(** C9: every principle identifier that [main] passes to [load_example]
    contains the separator, so that the second piece of the split exists (it
    is the suffix after the separator) and [IndexError] is never raised, by
    [load_example] on these identifiers or by [main] on any input. *)
Theorem separator_index_defined (fs : string -> file) (pid : string) :
  In pid principles ->
  In "-"%char (list_ascii_of_string pid)
  /\ getitem (split "-" pid) 1 = ret (suffix_after "-" pid)
  /\ snd (load_example fs pid) <> Raise IndexError
  /\ (forall c, snd (dispatch fs c) <> Raise IndexError)
  /\ (forall stdin, snd (main fs stdin) <> Raise IndexError).
Proof.
  intros Hp. split; [|split; [|split; [|split]]].
  - cbn in Hp.
    repeat (destruct Hp as [<-|Hp]; [cbn; tauto|]). contradiction.
  - cbn in Hp.
    repeat (destruct Hp as [<-|Hp]; [reflexivity|]). contradiction.
  - exact (load_example_no_index_error fs pid Hp).
  - exact (dispatch_no_index_error fs).
  - induction stdin as [|line rest IH]; [discriminate|].
    destruct (snd (loop_body fs line)) as [[|]|e] eqn:Hbody.
    + rewrite (main_continue fs line rest Hbody). exact IH.
    + rewrite (main_break fs line rest Hbody). discriminate.
    + rewrite (main_raise fs line rest e Hbody). cbn [snd].
      rewrite loop_body_eq in Hbody. unfold prepend in Hbody.
      cbn [snd] in Hbody. intros Heq. inversion Heq; subst e.
      exact (dispatch_no_index_error fs _ Hbody).
Qed.

Lemma separator_index_defined_witness :
  In "-"%char (list_ascii_of_string "3-lsp")
  /\ getitem (split "-" "3-lsp") 1 = ret "lsp"
  /\ snd (load_example empty_fs "3-lsp") <> Raise IndexError
  /\ (forall c, snd (dispatch empty_fs c) <> Raise IndexError)
  /\ (forall stdin, snd (main empty_fs stdin) <> Raise IndexError).
Proof.
  apply (separator_index_defined empty_fs "3-lsp").
  cbn. tauto.
Defined.

(** C10: [load_example] is not atomic: when the bad example of the selected
    principle can be read and the good one is missing, the call fails with
    [FileNotFoundError] after the bad header and the whole bad file (and the
    good header) have been written. *)
Theorem load_example_partial_output
  (fs : string -> file) (c pid b : string) :
  In (c, pid) selections ->
  fs (bad_path pid) = Text b -> fs (good_path pid) = Missing ->
  load_example fs pid
  = ((([Stdout bad_header; OpenRead (bad_path pid); Stdout (b ++ nl)]
       ++ [Stdout good_header]) ++ [OpenRead (good_path pid)])%list,
     Raise FileNotFoundError)
  /\ stdout_text (fst (load_example fs pid))
     = (nl ++ "--- Bad Example ---" ++ nl) ++ (b ++ nl)
       ++ (nl ++ "--- Good Example ---" ++ nl).
Proof.
  intros Hsel Hb Hg.
  assert (Hload := load_example_good_fails fs pid b FileNotFoundError
                     (in_principles _ _ Hsel) Hb).
  rewrite Hload by (rewrite Hg; reflexivity).
  split; [reflexivity|].
  cbn [fst stdout_text]. now rewrite append_empty_r.
Qed.

Lemma load_example_partial_output_witness :
  load_example partial_fs "3-lsp"
  = ((([Stdout bad_header; OpenRead "3-lsp/bad_lsp.py";
        Stdout (("class Penguin(Bird): pass" ++ nl) ++ nl)]
       ++ [Stdout good_header]) ++ [OpenRead "3-lsp/good_lsp.py"])%list,
     Raise FileNotFoundError)
  /\ stdout_text (fst (load_example partial_fs "3-lsp"))
     = (nl ++ "--- Bad Example ---" ++ nl)
       ++ (("class Penguin(Bird): pass" ++ nl) ++ nl)
       ++ (nl ++ "--- Good Example ---" ++ nl).
Proof.
  apply (load_example_partial_output partial_fs "3" "3-lsp").
  - cbn. tauto.
  - reflexivity.
  - reflexivity.
Defined.

(** ** Further properties: stripping and splitting *)

Lemma append_assoc (a b c : string) : (a ++ b) ++ c = a ++ (b ++ c).
Proof. induction a as [|x a IH]; [reflexivity|]. cbn. now rewrite IH. Qed.

Lemma lstrip_all_space (w : string) :
  all_space w = true -> lstrip w = EmptyString.
Proof.
  induction w as [|c w IH]; [reflexivity|]. cbn.
  intros H. apply andb_true_iff in H. destruct H as [Hc Hw].
  rewrite Hc. exact (IH Hw).
Qed.

Lemma rstrip_all_space (w : string) :
  all_space w = true -> rstrip w = EmptyString.
Proof.
  induction w as [|c w IH]; [reflexivity|]. cbn.
  intros H. apply andb_true_iff in H. destruct H as [Hc Hw].
  rewrite (IH Hw), Hc. reflexivity.
Qed.

Lemma lstrip_app (s w : string) :
  lstrip (s ++ w) = if all_space s then lstrip w else lstrip s ++ w.
Proof.
  induction s as [|c s IH]; [reflexivity|]. cbn.
  destruct (isspace c); [exact IH|reflexivity].
Qed.

Lemma rstrip_app_space (s w : string) :
  all_space w = true -> rstrip (s ++ w) = rstrip s.
Proof.
  intros Hw. induction s as [|c s IH].
  - exact (rstrip_all_space w Hw).
  - cbn. now rewrite IH.
Qed.

(** Whitespace around a string does not change what [strip] returns. *)
Lemma strip_padded (w1 s w2 : string) :
  all_space w1 = true -> all_space w2 = true ->
  strip (w1 ++ s ++ w2) = strip s.
Proof.
  intros H1 H2. unfold strip.
  rewrite lstrip_app, H1, lstrip_app.
  destruct (all_space s) eqn:Hs.
  - now rewrite (lstrip_all_space w2 H2), (lstrip_all_space s Hs).
  - exact (rstrip_app_space _ _ H2).
Qed.

Lemma split_head (sep : ascii) (s : string) :
  split sep s
  = prefix_before sep s
    :: (if has_char sep s then split sep (suffix_after sep s) else []).
Proof.
  induction s as [|c s IH]; [reflexivity|]. cbn.
  destruct (Ascii.eqb c sep); [reflexivity|]. cbn.
  rewrite IH. reflexivity.
Qed.

(** The second piece of a split, if there is one. *)
Lemma split_second (sep : ascii) (s : string) :
  nth_error (split sep s) 1
  = if has_char sep s then Some (prefix_before sep (suffix_after sep s))
    else None.
Proof.
  rewrite split_head. destruct (has_char sep s); [|reflexivity].
  rewrite split_head. reflexivity.
Qed.

Lemma has_char_nonempty (c : ascii) (s : string) :
  has_char c s = true -> (String.length s =? 0)%nat = false.
Proof. destruct s; [discriminate|reflexivity]. Qed.

(** ** Further properties of the loop *)

(** When the example files can be read, the loop goes on after a line
    exactly when the line is not stripped to the exit choice. *)
Lemma continues_iff (fs : string -> file) (line : string) :
  examples_readable fs = true -> (continues fs line <-> not_exit line).
Proof.
  intros Hfs. unfold continues, not_exit. rewrite loop_body_eq.
  unfold prepend; cbn [snd]. split.
  - intros H H6. rewrite H6 in H. discriminate.
  - intros Hne.
    destruct (in_dec string_dec (strip line) choices) as [Hin|Hout].
    + destruct (in_choices _ Hin) as [H6|[pid Hsel]]; [contradiction|].
      destruct (examples_readable_spec fs pid Hfs (in_principles _ _ Hsel))
        as (b & g & Hb & Hg).
      rewrite (dispatch_selection fs _ pid Hsel), snd_then_continue.
      rewrite (load_example_ok fs pid b g (in_principles _ _ Hsel) Hb Hg).
      reflexivity.
    + rewrite (dispatch_invalid fs _ Hout). reflexivity.
Qed.

Lemma loop_body_break_iff (fs : string -> file) (line : string) :
  snd (loop_body fs line) = Ok Break <-> strip line = "6".
Proof.
  rewrite loop_body_eq. unfold prepend; cbn [snd].
  apply dispatch_break_iff.
Qed.

Lemma dispatch_opened (fs : string -> file) (c p : string) :
  In p (opened (fst (dispatch fs c))) -> In p example_files.
Proof.
  destruct (in_dec string_dec c choices) as [Hin|Hout].
  - destruct (in_choices c Hin) as [->|[pid Hsel]]; [intros []|].
    rewrite (dispatch_selection fs c pid Hsel), fst_then_continue.
    assert (Hp := in_principles _ _ Hsel).
    rewrite (load_example_opened fs pid Hp).
    assert (Hfiles : In (bad_path pid) example_files
                     /\ In (good_path pid) example_files).
    { cbn in Hp.
      repeat (destruct Hp as [<-|Hp]; [split; cbn; tauto|]). contradiction. }
    destruct Hfiles as [Hbad Hgood].
    destruct (readable (fs (bad_path pid))); cbn; intros H;
      repeat (destruct H as [<-|H]; [assumption|]); contradiction.
  - rewrite (dispatch_invalid fs c Hout). intros [].
Qed.

Lemma pass_opened (fs : string -> file) (line p : string) :
  In p (opened (pass_events fs line)) -> In p example_files.
Proof.
  unfold pass_events. rewrite loop_body_eq. unfold prepend; cbn [fst].
  rewrite opened_app. cbn [app]. change (opened pass_prefix) with (@nil string).
  apply dispatch_opened.
Qed.

(** X1: when the example files can be read and no line is stripped to the
    exit choice, [main] reads every line and then fails with [EOFError], the
    menu and the prompt having been written once more; the process exits
    with status 1.  This includes the empty input. *)
Theorem main_input_exhausted (fs : string -> file) (stdin : list string) :
  examples_readable fs = true ->
  Forall not_exit stdin ->
  main fs stdin
  = ((session_events fs stdin ++ pass_prefix)%list, Raise EOFError)
  /\ exit_status (snd (main fs stdin)) = 1.
Proof.
  intros Hfs Hlines.
  assert (Hcont : Forall (continues fs) stdin).
  { eapply Forall_impl; [|exact Hlines].
    intros line. apply (continues_iff fs line Hfs). }
  assert (Hmain : main fs stdin
            = ((session_events fs stdin ++ pass_prefix)%list, Raise EOFError)).
  { rewrite <- (app_nil_r stdin) at 1.
    rewrite (main_app fs stdin [] Hcont), main_nil. reflexivity. }
  split; [exact Hmain|]. now rewrite Hmain.
Qed.

Lemma main_input_exhausted_witness :
  main sample_fs ["9"; "3"; "six"]
  = ((session_events sample_fs ["9"; "3"; "six"] ++ pass_prefix)%list,
     Raise EOFError)
  /\ exit_status (snd (main sample_fs ["9"; "3"; "six"])) = 1.
Proof.
  apply (main_input_exhausted sample_fs ["9"; "3"; "six"]).
  - reflexivity.
  - repeat constructor; discriminate.
Defined.

(** X2: [main] returns normally, leaving [unread] on standard input, exactly
    when the input is some lines after each of which the loop goes on, then
    a line that is stripped to "6", then [unread]; its output is then that
    of these passes and nothing more. *)
Theorem main_returns_iff_exit
  (fs : string -> file) (stdin unread : list string) :
  snd (main fs stdin) = Ok unread
  <-> exists pre line,
        stdin = (pre ++ line :: unread)%list
        /\ Forall (continues fs) pre
        /\ strip line = "6"
        /\ fst (main fs stdin) = session_events fs (pre ++ [line])%list.
Proof.
  split.
  - revert unread. induction stdin as [|line rest IH]; intros unread H.
    + discriminate.
    + destruct (snd (loop_body fs line)) as [[|]|e] eqn:Hbody.
      * rewrite (main_continue fs line rest Hbody) in H.
        unfold prepend in H; cbn [snd] in H.
        destruct (IH unread H) as (pre & l & -> & Hpre & H6 & Hev).
        exists (line :: pre), l.
        split; [reflexivity|]. split; [constructor; assumption|].
        split; [assumption|].
        rewrite (main_continue fs line _ Hbody). unfold prepend; cbn [fst].
        rewrite Hev. reflexivity.
      * rewrite (main_break fs line rest Hbody) in H. inversion H; subst.
        exists [], line.
        split; [reflexivity|]. split; [constructor|].
        split; [exact (proj1 (loop_body_break_iff fs line) Hbody)|].
        rewrite (main_break fs line _ Hbody).
        unfold session_events. cbn. now rewrite app_nil_r.
      * rewrite (main_raise fs line rest e Hbody) in H. discriminate.
  - intros (pre & line & -> & Hpre & H6 & _).
    rewrite (main_app fs pre _ Hpre). unfold prepend; cbn [snd].
    now rewrite (main_break fs line unread
                   (proj2 (loop_body_break_iff fs line) H6)).
Qed.

Lemma main_returns_iff_exit_witness :
  snd (main sample_fs ["9"; "2"; " 6 "; "1"]) = Ok ["1"].
Proof.
  apply (main_returns_iff_exit sample_fs ["9"; "2"; " 6 "; "1"] ["1"]).
  exists ["9"; "2"], " 6 ".
  split; [reflexivity|]. split; [repeat constructor|].
  split; reflexivity.
Defined.

(** X3: whatever is typed, and whatever the file system holds, [main] opens
    no path other than the ten example files: the input selects among them
    and is never used as a path. *)
Theorem main_opens_only_examples
  (fs : string -> file) (stdin : list string) (p : string) :
  In p (opened (fst (main fs stdin))) -> In p example_files.
Proof.
  induction stdin as [|line rest IH].
  - intros [].
  - destruct (snd (loop_body fs line)) as [[|]|e] eqn:Hbody.
    + rewrite (main_continue fs line rest Hbody).
      unfold prepend; cbn [fst]. rewrite opened_app, in_app_iff.
      intros [H|H]; [exact (pass_opened fs line p H)|exact (IH H)].
    + rewrite (main_break fs line rest Hbody). cbn [fst].
      apply pass_opened.
    + rewrite (main_raise fs line rest e Hbody). cbn [fst].
      apply pass_opened.
Qed.

Lemma main_opens_only_examples_witness :
  In "3-lsp/bad_lsp.py" example_files.
Proof.
  apply (main_opens_only_examples partial_fs ["../etc/passwd"; " 3"; "6"]).
  vm_compute. left. reflexivity.
Defined.

(** X4: whitespace typed before or after a choice is ignored: a padded line
    is handled exactly as the line without the padding. *)
Theorem padded_line_same_pass
  (fs : string -> file) (w1 line w2 : string) (rest : list string) :
  all_space w1 = true -> all_space w2 = true ->
  loop_body fs (w1 ++ line ++ w2) = loop_body fs line
  /\ main fs ((w1 ++ line ++ w2) :: rest) = main fs (line :: rest).
Proof.
  intros H1 H2. unfold loop_body. cbn [main].
  rewrite (strip_padded w1 line w2 H1 H2). split; reflexivity.
Qed.

Lemma padded_line_same_pass_witness :
  loop_body sample_fs ("  " ++ "2" ++ String (ascii_of_nat 9) " ")
  = loop_body sample_fs "2"
  /\ main sample_fs (("  " ++ "2" ++ String (ascii_of_nat 9) " ") :: ["6"])
     = main sample_fs ("2" :: ["6"]).
Proof.
  apply (padded_line_same_pass sample_fs "  " "2"
           (String (ascii_of_nat 9) " ") ["6"]); reflexivity.
Defined.

(** ** Further properties of [load_example] *)

Lemma example_paths_sep (principle : string) :
  has_char "-" principle = true ->
  example_paths principle
  = ret (path_join principle ("bad_" ++ lower (second_piece principle) ++ ".py"),
         path_join principle ("good_" ++ lower (second_piece principle) ++ ".py")).
Proof.
  intros H. unfold example_paths, getitem, second_piece.
  rewrite split_second, H. reflexivity.
Qed.

Lemma example_paths_no_sep (principle : string) :
  has_char "-" principle = false -> example_paths principle = raise IndexError.
Proof.
  intros H. unfold example_paths, getitem.
  rewrite split_second, H. reflexivity.
Qed.

(** [load_example] on any identifier whose paths are [bad] and [good]. *)
Lemma load_example_with (fs : string -> file) (principle bad good : string) :
  example_paths principle = ret (bad, good) ->
  load_example fs principle
  = match fs bad with
    | Text b =>
        match fs good with
        | Text g =>
            ([Stdout bad_header; OpenRead bad; Stdout (b ++ nl);
              Stdout good_header; OpenRead good; Stdout (g ++ nl)], Ok tt)
        | Missing =>
            ([Stdout bad_header; OpenRead bad; Stdout (b ++ nl);
              Stdout good_header; OpenRead good], Raise FileNotFoundError)
        | Denied =>
            ([Stdout bad_header; OpenRead bad; Stdout (b ++ nl);
              Stdout good_header; OpenRead good], Raise PermissionError)
        end
    | Missing => ([Stdout bad_header; OpenRead bad], Raise FileNotFoundError)
    | Denied => ([Stdout bad_header; OpenRead bad], Raise PermissionError)
    end.
Proof.
  intros H. unfold load_example. rewrite H. unfold ret.
  rewrite bind_ok. cbn [fst snd]. unfold open_read, print, emit.
  destruct (fs bad); [reflexivity|reflexivity|].
  destruct (fs good); reflexivity.
Qed.

Lemma path_join_relative (a b : string) :
  startswith "/" b = false ->
  (String.length a =? 0)%nat = false ->
  path_join a b = a ++ (if endswith_char "/" a then EmptyString else "/") ++ b.
Proof.
  intros Hb Ha. unfold path_join. rewrite Hb, Ha. cbn [orb].
  destruct (endswith_char "/" a); reflexivity.
Qed.

(** X5: an identifier without the separator makes [load_example] fail with
    [IndexError] before anything is printed or opened; an identifier with a
    separator never does. *)
Theorem load_example_index_error (fs : string -> file) (principle : string) :
  (has_char "-" principle = false ->
   load_example fs principle = ([], Raise IndexError))
  /\ (has_char "-" principle = true ->
      snd (load_example fs principle) <> Raise IndexError).
Proof.
  split; intros H.
  - unfold load_example. rewrite (example_paths_no_sep principle H).
    reflexivity.
  - rewrite (load_example_with fs principle _ _ (example_paths_sep principle H)).
    destruct (fs _); [discriminate|discriminate|].
    destruct (fs _); discriminate.
Qed.

Lemma load_example_index_error_witness :
  load_example sample_fs "srp" = ([], Raise IndexError)
  /\ snd (load_example sample_fs "srp-") <> Raise IndexError.
Proof.
  split.
  - apply (proj1 (load_example_index_error sample_fs "srp")). reflexivity.
  - apply (proj2 (load_example_index_error sample_fs "srp-")). reflexivity.
Defined.

(** X6: for any identifier with a separator, the two paths are the
    identifier itself as directory (joined with a slash unless it already
    ends with one) and the file names "bad_" and "good_" followed by the
    lower-cased piece between the first and the second separator and ".py":
    the directory keeps its case and whatever follows a second separator is
    not part of the file name. *)
Theorem example_paths_any_identifier (principle : string) :
  has_char "-" principle = true ->
  example_paths principle
  = ret (principle
         ++ (if endswith_char "/" principle then EmptyString else "/")
         ++ "bad_" ++ lower (second_piece principle) ++ ".py",
         principle
         ++ (if endswith_char "/" principle then EmptyString else "/")
         ++ "good_" ++ lower (second_piece principle) ++ ".py").
Proof.
  intros H. rewrite (example_paths_sep principle H).
  rewrite !path_join_relative;
    try reflexivity; exact (has_char_nonempty _ _ H).
Qed.

Lemma example_paths_any_identifier_witness :
  example_paths "Demo-LSP-v2"
  = ret ("Demo-LSP-v2/bad_lsp.py", "Demo-LSP-v2/good_lsp.py").
Proof.
  apply (example_paths_any_identifier "Demo-LSP-v2"). reflexivity.
Defined.

(** X7: for any identifier with a separator, [load_example] returns
    normally exactly when both of its files can be read; the good file is
    opened only after the bad one has been read. *)
Theorem load_example_succeeds_iff_readable
  (fs : string -> file) (principle bad good : string) :
  example_paths principle = ret (bad, good) ->
  (snd (load_example fs principle) = Ok tt
   <-> readable (fs bad) && readable (fs good) = true)
  /\ opened (fst (load_example fs principle))
     = bad :: (if readable (fs bad) then [good] else []).
Proof.
  intros H. rewrite (load_example_with fs principle bad good H).
  destruct (fs bad); cbn; try (split; [split; discriminate|reflexivity]).
  destruct (fs good); cbn; split; try reflexivity;
    split; intros; try discriminate; reflexivity.
Qed.

Lemma load_example_succeeds_iff_readable_witness :
  (snd (load_example partial_fs "3-lsp") = Ok tt
   <-> readable (partial_fs "3-lsp/bad_lsp.py")
       && readable (partial_fs "3-lsp/good_lsp.py") = true)
  /\ opened (fst (load_example partial_fs "3-lsp"))
     = "3-lsp/bad_lsp.py"
       :: (if readable (partial_fs "3-lsp/bad_lsp.py")
           then ["3-lsp/good_lsp.py"] else []).
Proof.
  apply (load_example_succeeds_iff_readable partial_fs "3-lsp").
  reflexivity.
Defined.



(** ** Properties of the dependency-inversion examples *)

Lemma join_app (sep : string) (l1 l2 : list string) :
  l1 <> [] -> l2 <> [] ->
  join sep (l1 ++ l2)%list = join sep l1 ++ sep ++ join sep l2.
Proof.
  intros H1 H2. induction l1 as [|x l1 IH]; [contradiction|].
  destruct l1 as [|y l1].
  - destruct l2; [contradiction|reflexivity].
  - change (join sep ((x :: y :: l1) ++ l2)%list)
      with (x ++ sep ++ join sep ((y :: l1) ++ l2)%list).
    rewrite IH by discriminate.
    change (join sep (x :: y :: l1)) with (x ++ sep ++ join sep (y :: l1)).
    now rewrite !append_assoc.
Qed.

(** X9: in [good_dip.py], a project without developers develops the empty
    text, and the text of two teams put together is the text of the first,
    one blank, and the text of the second. *)
Theorem project_develop_teams (t1 t2 : list GoodDip.Developer) :
  GoodDip.Project_develop [] = EmptyString
  /\ (t1 <> [] -> t2 <> [] ->
      GoodDip.Project_develop (t1 ++ t2)%list
      = GoodDip.Project_develop t1 ++ " " ++ GoodDip.Project_develop t2).
Proof.
  split; [reflexivity|]. intros H1 H2. unfold GoodDip.Project_develop.
  rewrite map_app. apply join_app.
  - destruct t1; [contradiction|discriminate].
  - destruct t2; [contradiction|discriminate].
Qed.

Lemma project_develop_teams_witness :
  GoodDip.Project_develop [] = EmptyString
  /\ GoodDip.Project_develop
       ([GoodDip.FrontendDeveloper] ++ GoodDip.team)%list
     = GoodDip.Project_develop [GoodDip.FrontendDeveloper] ++ " "
       ++ GoodDip.Project_develop GoodDip.team.
Proof.
  destruct (project_develop_teams [GoodDip.FrontendDeveloper] GoodDip.team)
    as [Hempty Happ].
  split; [exact Hempty|]. apply Happ; discriminate.
Defined.

(** X10: the project of [bad_dip.py] develops the same text as the project
    of [good_dip.py] does on the team of its two developers, in the same
    order; for the developers of the repository this is the text that the
    example usage prints. *)
Theorem dip_projects_agree (self : BadDip.Project) :
  BadDip.Project_develop self
  = GoodDip.Project_develop
      [ {| GoodDip.develop := BadDip.backend self |};
        {| GoodDip.develop := BadDip.frontend self |} ]
  /\ BadDip.Project_develop BadDip.Project_init
     = GoodDip.Project_develop GoodDip.team
  /\ GoodDip.script
     = ([Stdout ("Writing backend code... Writing frontend code..." ++ nl)],
        Ok tt).
Proof. repeat split. Qed.

(** ** A bound on the file accesses *)

Lemma pass_opened_length (fs : string -> file) (line : string) :
  length (opened (pass_events fs line)) <= 2.
Proof.
  unfold pass_events. rewrite loop_body_eq. unfold prepend; cbn [fst].
  rewrite opened_app. change (opened pass_prefix) with (@nil string).
  cbn [app].
  destruct (in_dec string_dec (strip line) choices) as [Hin|Hout].
  - destruct (in_choices _ Hin) as [H6|[pid Hsel]].
    + rewrite H6. cbn. lia.
    + rewrite (dispatch_selection fs _ pid Hsel), fst_then_continue.
      rewrite (load_example_opened fs pid (in_principles _ _ Hsel)).
      destruct (readable (fs (bad_path pid))); cbn; lia.
  - rewrite (dispatch_invalid fs _ Hout). cbn. lia.
Qed.

(** X11: a session opens at most two files for each line of input it is
    given, and none at all on an empty input. *)
Theorem main_opens_at_most_two_per_line
  (fs : string -> file) (stdin : list string) :
  length (opened (fst (main fs stdin))) <= 2 * length stdin.
Proof.
  induction stdin as [|line rest IH]; [cbn; lia|].
  pose proof (pass_opened_length fs line) as Hpass.
  cbn [length].
  destruct (snd (loop_body fs line)) as [[|]|e] eqn:Hbody.
  - rewrite (main_continue fs line rest Hbody).
    unfold prepend; cbn [fst]. rewrite opened_app, length_app. lia.
  - rewrite (main_break fs line rest Hbody). cbn [fst]. lia.
  - rewrite (main_raise fs line rest e Hbody). cbn [fst]. lia.
Qed.
